(** * top_five: the Flask "Top 5" submission application (app.py)

    A shallow embedding of [app.py]: the validator [validate_input], the
    module-level list [submissions], and the request handlers [home]
    (GET and POST) and [clear_submissions], followed by the properties of
    the specification proved against them. *)

From Stdlib Require Import List ZArith NArith Lia Bool String Ascii DecimalString Sorted.
Import ListNotations.
Local Open Scope Z_scope.

(** ** Python values used by the application *)

Module Py.

(** A Python [str] is a sequence of Unicode code points; [len] counts
    code points. *)
Definition str := list N.

(** A string literal of the source, given by its (ASCII) characters. *)
Definition lit (s : string) : str := map N_of_ascii (list_ascii_of_string s).

(** [str(i)] / [f"{i}"] for an [int]: the decimal numeral. *)
Definition str_of_int (i : Z) : str := lit (NilZero.string_of_int (Z.to_int i)).

(** [len(x)] as a Python [int]. *)
Definition len {A : Type} (l : list A) : Z := Z.of_nat (List.length l).

Fixpoint str_eqb (a b : str) : bool :=
  match a, b with
  | [], [] => true
  | x :: a', y :: b' => N.eqb x y && str_eqb a' b'
  | _, _ => false
  end.

(** [char in text] for a one-character [char]. *)
Definition contains (char : N) (text : str) : bool := existsb (N.eqb char) text.

(** [str.isspace] on one code point: the white-space characters that
    [str.strip()] without argument removes. *)
Definition isspace (c : N) : bool :=
  ((9 <=? c) && (c <=? 13) || (28 <=? c) && (c <=? 32)
   || (c =? 133) || (c =? 160) || (c =? 5760)
   || (8192 <=? c) && (c <=? 8202)
   || (c =? 8232) || (c =? 8233) || (c =? 8239) || (c =? 8287)
   || (c =? 12288))%N.

Fixpoint lstrip (s : str) : str :=
  match s with
  | c :: s' => if isspace c then lstrip s' else s
  | [] => []
  end.

Definition rstrip (s : str) : str := rev (lstrip (rev s)).

(** [s.strip()] *)
Definition strip (s : str) : str := rstrip (lstrip s).

(** [range(lo, hi)] *)
Definition range (lo hi : Z) : list Z :=
  map (fun k => lo + Z.of_nat k) (seq 0 (Z.to_nat (hi - lo))).

(** [reversed(l)], as the sequence the iterator yields. *)
Definition reversed {A : Type} (l : list A) : list A := rev l.

(** The four characters refused by the validator. *)
Definition LT : N := 60.      (* '<' *)
Definition GT : N := 62.      (* '>' *)
Definition DQUOTE : N := 34.  (* the double quote *)
Definition SQUOTE : N := 39.  (* the single quote *)

End Py.

(** ** Configuration *)

Definition MAX_CATEGORY_LENGTH : Z := 100.
Definition MAX_ITEM_LENGTH : Z := 200.
Definition MAX_SUBMISSIONS : Z := 1000.

(** ** The validator

    [validate_input] returns the pair [(is_valid, error_msg)]; [None] is
    Python's [None]. *)

Definition validate_input (text : Py.str) (max_length : Z) (field_name : Py.str)
  : bool * option Py.str :=
  match text with
  | [] => (false, Some (field_name ++ Py.lit " cannot be empty"))
  | _ =>
    if Py.len text >? max_length then
      (false, Some (field_name ++ Py.lit " exceeds maximum length of "
                      ++ Py.str_of_int max_length ++ Py.lit " characters"))
    else if existsb (fun char => Py.contains char text)
                    [Py.LT; Py.GT; Py.DQUOTE; Py.SQUOTE] then
      (false, Some (field_name ++ Py.lit " contains invalid characters"))
    else (true, None)
  end.

(** ** Submissions and the store *)

Module Submission.
(** The dict built by [home]: keys "id", "category", "five", "timestamp". *)
Record t : Type := mk
  { id : Z; category : Py.str; five : list Py.str; timestamp : Py.str }.
End Submission.

(** The global [submissions]: a list, appended to at its end. *)
Definition Store := list Submission.t.

(** [request.form]: a multi-dict of the posted fields; [get] returns the
    first value stored under the key, or the default. *)
Definition Form := list (Py.str * Py.str).

Definition form_get (form : Form) (key default : Py.str) : Py.str :=
  match find (fun kv => Py.str_eqb (fst kv) key) form with
  | Some kv => snd kv
  | None => default
  end.

Inductive Level := INFO | WARNING | ERROR.

Inductive Response :=
| Redirect (endpoint : Py.str)
| RenderTemplate (template : Py.str) (submissions : list Submission.t)
                 (max_category_length max_item_length : Z).

(** What one request does: the new value of [submissions], the notices
    passed to [flash] (message, category), the records written to the
    logger, and the response returned. *)
Record Outcome := mkOutcome
  { store : Store;
    flashes : list (option Py.str * Py.str);
    logs : list (Level * Py.str);
    response : Response }.

(** ** The handlers *)

(** [flash(error_msg, "error"); return redirect(url_for('home'))] *)
Definition reject (submissions : Store) (error_msg : option Py.str) : Outcome :=
  {| store := submissions;
     flashes := [(error_msg, Py.lit "error")];
     logs := [];
     response := Redirect (Py.lit "home") |}.

(** The loop [for idx, item in enumerate(items, 1)]: it returns from the
    handler at the first item that fails, and otherwise falls through to
    the rest of the handler. *)
Fixpoint validate_items (submissions : Store) (idx : Z) (items : list Py.str)
         (rest_of_handler : Outcome) : Outcome :=
  match items with
  | [] => rest_of_handler
  | item :: items' =>
    let '(is_valid, error_msg) :=
      validate_input item MAX_ITEM_LENGTH (Py.lit "Item " ++ Py.str_of_int idx) in
    if negb is_valid then reject submissions error_msg
    else validate_items submissions (idx + 1) items' rest_of_handler
  end.

(** [home] on a POST request; [now] is [datetime.now().isoformat()].
    The body of the [try] reads the form with a default, trims strings and
    builds a dict: none of these raises, so the [except] branch is not
    reached on any form and is left out. *)
Definition home_post (submissions : Store) (form : Form) (now : Py.str) : Outcome :=
  let category := Py.strip (form_get form (Py.lit "category") []) in
  let items :=
    map (fun i => Py.strip (form_get form (Py.lit "item" ++ Py.str_of_int i) []))
        (Py.range 1 6) in
  let '(is_valid, error_msg) :=
    validate_input category MAX_CATEGORY_LENGTH (Py.lit "Category") in
  if negb is_valid then reject submissions error_msg
  else
    validate_items submissions 1 items
      (if Py.len submissions >=? MAX_SUBMISSIONS then
         {| store := submissions;
            flashes := [(Some (Py.lit "Submission limit reached. Please contact administrator."),
                         Py.lit "error")];
            logs := [(WARNING, Py.lit "Submission limit reached")];
            response := Redirect (Py.lit "home") |}
       else
         let submission :=
           {| Submission.id := Py.len submissions + 1;
              Submission.category := category;
              Submission.five := items;
              Submission.timestamp := now |} in
         {| store := submissions ++ [submission];
            flashes := [(Some (Py.lit "Your top 5 list has been submitted successfully!"),
                         Py.lit "success")];
            logs := [(INFO, Py.lit "New submission added: " ++ category)];
            response := Redirect (Py.lit "home") |}).

(** [home] on a GET request. *)
Definition home_get (submissions : Store) : Outcome :=
  {| store := submissions;
     flashes := [];
     logs := [];
     response := RenderTemplate (Py.lit "index.html") (Py.reversed submissions)
                                MAX_CATEGORY_LENGTH MAX_ITEM_LENGTH |}.

(** [clear_submissions] *)
Definition clear_submissions (submissions : Store) : Outcome :=
  {| store := [];
     flashes := [(Some (Py.lit "All submissions have been cleared."), Py.lit "info")];
     logs := [(INFO, Py.lit "All submissions cleared")];
     response := Redirect (Py.lit "home") |}.

(** ** Requests and runs of the application *)

Inductive Request :=
| GET_home
| POST_home (form : Form) (now : Py.str)
| POST_clear.

Definition handle (submissions : Store) (r : Request) : Outcome :=
  match r with
  | GET_home => home_get submissions
  | POST_home form now => home_post submissions form now
  | POST_clear => clear_submissions submissions
  end.

(** The store after serving the requests in order. *)
Fixpoint run (submissions : Store) (reqs : list Request) : Store :=
  match reqs with
  | [] => submissions
  | r :: reqs' => run (store (handle submissions r)) reqs'
  end.

(** The store at start-up: [submissions = []]. *)
Definition initial : Store := [].

(** ** Vocabulary of the statements *)

(** The characters refused by [validate_input]. *)
Definition forbidden : list N := [Py.LT; Py.GT; Py.DQUOTE; Py.SQUOTE].

Definition has_forbidden (text : Py.str) : Prop :=
  exists c, In c forbidden /\ In c text.

(** A field as the handler validates it: trimmed value, maximum length,
    field name. *)
Definition Field : Type := Py.str * Z * Py.str.

Definition check (f : Field) : bool * option Py.str :=
  let '(text, max_length, field_name) := f in
  validate_input text max_length field_name.

Definition valid (f : Field) : Prop := check f = (true, None).

(** A field that is empty, too long, or holds a refused character. *)
Definition faulty (f : Field) : Prop :=
  let '(text, max_length, _) := f in
  text = [] \/ Py.len text > max_length \/ has_forbidden text.

(** The fields of the [enumerate(items, idx)] loop. *)
Fixpoint item_fields (idx : Z) (items : list Py.str) : list Field :=
  match items with
  | [] => []
  | item :: items' =>
    (item, MAX_ITEM_LENGTH, Py.lit "Item " ++ Py.str_of_int idx)
      :: item_fields (idx + 1) items'
  end.

(** The trimmed category and the trimmed items of a posted form. *)
Definition form_category (form : Form) : Py.str :=
  Py.strip (form_get form (Py.lit "category") []).

Definition form_items (form : Form) : list Py.str :=
  map (fun i => Py.strip (form_get form (Py.lit "item" ++ Py.str_of_int i) []))
      (Py.range 1 6).

(** The six fields of a submit request, in the order of validation. *)
Definition fields (form : Form) : list Field :=
  (form_category form, MAX_CATEGORY_LENGTH, Py.lit "Category")
    :: item_fields 1 (form_items form).

(** The message of the first field that fails, if one does. *)
Fixpoint first_error (fs : list Field) : option (option Py.str) :=
  match fs with
  | [] => None
  | f :: fs' =>
    let '(is_valid, error_msg) := check f in
    if is_valid then first_error fs' else Some error_msg
  end.

(** The notices of the three ways a submit request ends. *)
Definition success_notice : option Py.str * Py.str :=
  (Some (Py.lit "Your top 5 list has been submitted successfully!"), Py.lit "success").

Definition limit_notice : option Py.str * Py.str :=
  (Some (Py.lit "Submission limit reached. Please contact administrator."),
   Py.lit "error").

Definition accepted (o : Outcome) : Prop := flashes o = [success_notice].

(** A request is rejected when it only flashes a validation message in
    the category "error" and redirects to the display flow. *)
Definition rejected_with (submissions : Store) (o : Outcome) (msg : Py.str) : Prop :=
  o = reject submissions (Some msg).

(** The submission a valid request creates in the store [submissions]. *)
Definition new_submission (submissions : Store) (form : Form) (now : Py.str)
  : Submission.t :=
  {| Submission.id := Py.len submissions + 1;
     Submission.category := form_category form;
     Submission.five := form_items form;
     Submission.timestamp := now |}.

(** The outcome of a valid request when the store is full. *)
Definition limit_outcome (submissions : Store) : Outcome :=
  {| store := submissions;
     flashes := [limit_notice];
     logs := [(WARNING, Py.lit "Submission limit reached")];
     response := Redirect (Py.lit "home") |}.

(** The outcome of a valid request when the store has room. *)
Definition accept_outcome (submissions : Store) (form : Form) (now : Py.str)
  : Outcome :=
  {| store := submissions ++ [new_submission submissions form now];
     flashes := [success_notice];
     logs := [(INFO, Py.lit "New submission added: " ++ form_category form)];
     response := Redirect (Py.lit "home") |}.

(** What the display flow hands to the template as [submissions]. *)
Definition rendered (r : Response) : list Submission.t :=
  match r with
  | RenderTemplate _ subs _ _ => subs
  | Redirect _ => []
  end.

Definition listing (submissions : Store) : list Submission.t :=
  rendered (response (handle submissions GET_home)).

(** The submissions present after a request beyond those present before. *)
Definition appended (before after : Store) : list Submission.t :=
  skipn (List.length before) after.

(** The ids given to the submissions created while serving [reqs]. *)
Fixpoint assigned_ids (submissions : Store) (reqs : list Request) : list Z :=
  match reqs with
  | [] => []
  | r :: reqs' =>
    let submissions' := store (handle submissions r) in
    map Submission.id (appended submissions submissions')
      ++ assigned_ids submissions' reqs'
  end.

Definition is_clear (r : Request) : bool :=
  match r with POST_clear => true | _ => false end.

(** The form keys read by [home], in the order of validation, with the
    field names used in the messages. *)
Definition form_keys : list (Py.str * Py.str) :=
  (Py.lit "category", Py.lit "Category")
    :: map (fun i => (Py.lit "item" ++ Py.str_of_int i,
                      Py.lit "Item " ++ Py.str_of_int i)) (Py.range 1 6).

Definition absent (form : Form) (key : Py.str) : Prop :=
  find (fun kv => Py.str_eqb (fst kv) key) form = None.

(** Sample data. *)
Definition movies : Form :=
  [ (Py.lit "category", Py.lit "Movies");
    (Py.lit "item1", Py.lit "A"); (Py.lit "item2", Py.lit "B");
    (Py.lit "item3", Py.lit "C"); (Py.lit "item4", Py.lit "D");
    (Py.lit "item5", Py.lit "E") ].

Definition noon : Py.str := Py.lit "2024-01-01T12:00:00".
Definition later : Py.str := Py.lit "2024-01-01T12:05:00".

(** A category that holds markup. *)
Definition script_form : Form :=
  [ (Py.lit "category", Py.lit "<script>");
    (Py.lit "item1", Py.lit "A"); (Py.lit "item2", Py.lit "B");
    (Py.lit "item3", Py.lit "C"); (Py.lit "item4", Py.lit "D");
    (Py.lit "item5", Py.lit "E") ].

(** A third item of 201 characters; the fourth item is empty. *)
Definition long_item3_form : Form :=
  [ (Py.lit "category", Py.lit "Movies");
    (Py.lit "item1", Py.lit "A"); (Py.lit "item2", Py.lit "B");
    (Py.lit "item3", repeat 97%N 201); (Py.lit "item4", Py.lit "  ");
    (Py.lit "item5", Py.lit "E") ].

(** No [item2] in the body. *)
Definition no_item2_form : Form :=
  [ (Py.lit "category", Py.lit "Movies");
    (Py.lit "item1", Py.lit "A");
    (Py.lit "item3", Py.lit "C"); (Py.lit "item4", Py.lit "D");
    (Py.lit "item5", Py.lit "E") ].

(** A category with markup, and no item at all in the body. *)
Definition markup_only_form : Form := [ (Py.lit "category", Py.lit "<b>") ].

(** ** Vocabulary of the further properties *)

(** A string made of white space only (the empty string included). *)
Definition all_space (s : Py.str) : Prop := forallb Py.isspace s = true.

(** A text as the data model wants it: trimmed, non-empty, within its
    maximum length and free of the refused characters. *)
Definition clean (max_length : Z) (text : Py.str) : Prop :=
  text <> [] /\ Py.len text <= max_length /\ ~ has_forbidden text
  /\ Py.strip text = text.

Definition well_formed (sub : Submission.t) : Prop :=
  clean MAX_CATEGORY_LENGTH (Submission.category sub)
  /\ List.length (Submission.five sub) = 5%nat
  /\ Forall (clean MAX_ITEM_LENGTH) (Submission.five sub).

(** A submit request whose six fields are all valid. *)
Definition valid_submit (r : Request) : Prop :=
  match r with
  | POST_home form _ => Forall valid (fields form)
  | _ => False
  end.

(** A display request, or a submit request with a field that fails. *)
Definition leaves_no_trace (r : Request) : bool :=
  match r with
  | GET_home => true
  | POST_home form _ =>
    match first_error (fields form) with Some _ => true | None => false end
  | POST_clear => false
  end.

(** The form with every value wrapped in [pre] and [post]. *)
Definition pad (pre post : Py.str) (form : Form) : Form :=
  map (fun kv => (fst kv, pre ++ snd kv ++ post)) form.

(** The sample form with a repeated key and a key the handler does not
    read. *)
Definition movies_with_extras : Form :=
  movies ++ [ (Py.lit "category", Py.lit "<b>"); (Py.lit "item6", Py.lit "F") ].

(** Only white space as the second item. *)
Definition blank_item2_form : Form :=
  [ (Py.lit "category", Py.lit "Movies");
    (Py.lit "item1", Py.lit "A"); (Py.lit "item2", [32; 9; 160]%N);
    (Py.lit "item3", Py.lit "C"); (Py.lit "item4", Py.lit "D");
    (Py.lit "item5", Py.lit "E") ].

(** ** The validator *)

Lemma contains_In (c : N) (text : Py.str) :
  Py.contains c text = true <-> In c text.
Proof.
  unfold Py.contains. rewrite existsb_exists. split.
  - intros [y [Hy Heq]]. apply N.eqb_eq in Heq. now subst.
  - intros H. exists c. split; [assumption | apply N.eqb_refl].
Qed.

Lemma has_forbidden_spec (text : Py.str) :
  existsb (fun char => Py.contains char text) forbidden = true <-> has_forbidden text.
Proof.
  rewrite existsb_exists. unfold has_forbidden.
  split; intros [c [H1 H2]]; exists c; split; auto; now apply contains_In.
Qed.

Lemma validate_input_empty (max_length : Z) (field_name : Py.str) :
  validate_input [] max_length field_name
  = (false, Some (field_name ++ Py.lit " cannot be empty")).
Proof. reflexivity. Qed.

Lemma validate_input_too_long (text : Py.str) (max_length : Z) (field_name : Py.str) :
  text <> [] -> Py.len text > max_length ->
  validate_input text max_length field_name
  = (false, Some (field_name ++ Py.lit " exceeds maximum length of "
                    ++ Py.str_of_int max_length ++ Py.lit " characters")).
Proof.
  intros Hne Hlen. unfold validate_input.
  destruct text as [|c text']; [congruence|].
  destruct (Py.len (c :: text') >? max_length) eqn:E; [reflexivity|].
  rewrite Z.gtb_ltb, Z.ltb_ge in E. lia.
Qed.

Lemma validate_input_forbidden (text : Py.str) (max_length : Z) (field_name : Py.str) :
  text <> [] -> Py.len text <= max_length -> has_forbidden text ->
  validate_input text max_length field_name
  = (false, Some (field_name ++ Py.lit " contains invalid characters")).
Proof.
  intros Hne Hlen Hbad. unfold validate_input.
  destruct text as [|c text']; [congruence|].
  destruct (Py.len (c :: text') >? max_length) eqn:E.
  - rewrite Z.gtb_ltb, Z.ltb_lt in E. lia.
  - apply has_forbidden_spec in Hbad. unfold forbidden in Hbad. now rewrite Hbad.
Qed.

Lemma validate_input_clean (text : Py.str) (max_length : Z) (field_name : Py.str) :
  text <> [] -> Py.len text <= max_length -> ~ has_forbidden text ->
  validate_input text max_length field_name = (true, None).
Proof.
  intros Hne Hlen Hbad. unfold validate_input.
  destruct text as [|c text']; [congruence|].
  destruct (Py.len (c :: text') >? max_length) eqn:E.
  - rewrite Z.gtb_ltb, Z.ltb_lt in E. lia.
  - destruct (existsb (fun char => Py.contains char (c :: text'))
                      [Py.LT; Py.GT; Py.DQUOTE; Py.SQUOTE]) eqn:B; [|reflexivity].
    exfalso. apply Hbad. now apply has_forbidden_spec.
Qed.

(** The three ways a text can be at fault are decidable, so every text
    falls in exactly one of the four cases of the validator. *)
Lemma text_cases (text : Py.str) (max_length : Z) :
  text = []
  \/ (text <> [] /\ Py.len text > max_length)
  \/ (text <> [] /\ Py.len text <= max_length /\ has_forbidden text)
  \/ (text <> [] /\ Py.len text <= max_length /\ ~ has_forbidden text).
Proof.
  destruct text as [|c text']; [now left | right].
  assert (Hne : c :: text' <> []) by discriminate.
  destruct (Z_gt_le_dec (Py.len (c :: text')) max_length) as [Hgt | Hle];
    [now left | right].
  destruct (existsb (fun char => Py.contains char (c :: text')) forbidden) eqn:B.
  - left. repeat split; auto. now apply has_forbidden_spec.
  - right. repeat split; auto. intros H. apply has_forbidden_spec in H. congruence.
Qed.

Lemma validate_input_ok_iff (text : Py.str) (max_length : Z) (field_name : Py.str) :
  validate_input text max_length field_name = (true, None)
  <-> text <> [] /\ Py.len text <= max_length /\ ~ has_forbidden text.
Proof.
  split.
  - intros H.
    destruct (text_cases text max_length) as [E | [[Hne Hgt] | [[Hne [Hle Hb]] | Hok]]].
    + subst. rewrite validate_input_empty in H. discriminate.
    + rewrite validate_input_too_long in H by assumption. discriminate.
    + rewrite validate_input_forbidden in H by assumption. discriminate.
    + exact Hok.
  - intros [Hne [Hle Hb]]. now apply validate_input_clean.
Qed.

(** A failing validation always carries a message. *)
Lemma validate_input_result (text : Py.str) (max_length : Z) (field_name : Py.str) :
  validate_input text max_length field_name = (true, None)
  \/ exists msg, validate_input text max_length field_name = (false, Some msg).
Proof.
  destruct (text_cases text max_length) as [E | [[Hne Hgt] | [[Hne [Hle Hb]] | [Hne [Hle Hb]]]]].
  - subst. right. eexists. apply validate_input_empty.
  - right. eexists. now apply validate_input_too_long.
  - right. eexists. now apply validate_input_forbidden.
  - left. now apply validate_input_clean.
Qed.

(** C2. [validate_input text max_length field_name] returns [(True, None)]
    exactly when [text] is non-empty, of length at most [max_length], and
    free of the characters <, >, double quote and single quote; otherwise
    it returns [False] with the message of the first failing check, in the
    order empty, length, characters: the message starts with [field_name],
    and the length message contains the decimal numeral of [max_length]. *)
Theorem validate_input_spec (text : Py.str) (max_length : Z) (field_name : Py.str) :
  (validate_input text max_length field_name = (true, None)
   <-> text <> [] /\ Py.len text <= max_length /\ ~ has_forbidden text)
  /\ (text = [] ->
      validate_input text max_length field_name
      = (false, Some (field_name ++ Py.lit " cannot be empty")))
  /\ (text <> [] -> Py.len text > max_length ->
      validate_input text max_length field_name
      = (false, Some (field_name ++ Py.lit " exceeds maximum length of "
                        ++ Py.str_of_int max_length ++ Py.lit " characters")))
  /\ (text <> [] -> Py.len text <= max_length -> has_forbidden text ->
      validate_input text max_length field_name
      = (false, Some (field_name ++ Py.lit " contains invalid characters"))).
Proof.
  split; [apply validate_input_ok_iff|].
  split; [intros ->; apply validate_input_empty|].
  split; [apply validate_input_too_long | apply validate_input_forbidden].
Qed.

(** ** The submit flow *)

Lemma validate_items_eq (submissions : Store) (items : list Py.str) :
  forall (idx : Z) (rest_of_handler : Outcome),
    validate_items submissions idx items rest_of_handler
    = match first_error (item_fields idx items) with
      | Some error_msg => reject submissions error_msg
      | None => rest_of_handler
      end.
Proof.
  induction items as [|item items' IH]; intros idx k; [reflexivity|].
  cbn [validate_items item_fields first_error check].
  destruct (validate_input item MAX_ITEM_LENGTH (Py.lit "Item " ++ Py.str_of_int idx))
    as [is_valid error_msg].
  destruct is_valid; cbn [negb]; [apply IH | reflexivity].
Qed.

(** The handler, read as: report the first failing field, else check the
    limit, else append. *)
Lemma home_post_eq (submissions : Store) (form : Form) (now : Py.str) :
  home_post submissions form now
  = match first_error (fields form) with
    | Some error_msg => reject submissions error_msg
    | None =>
      if Py.len submissions >=? MAX_SUBMISSIONS then limit_outcome submissions
      else accept_outcome submissions form now
    end.
Proof.
  unfold home_post, fields.
  fold (form_category form). fold (form_items form).
  cbn [first_error check].
  destruct (validate_input (form_category form) MAX_CATEGORY_LENGTH (Py.lit "Category"))
    as [is_valid error_msg].
  destruct is_valid; cbn [negb]; [|reflexivity].
  rewrite validate_items_eq. reflexivity.
Qed.

Lemma check_result (f : Field) :
  valid f \/ exists msg, check f = (false, Some msg).
Proof.
  destruct f as [[text max_length] field_name]. apply validate_input_result.
Qed.

Lemma valid_iff_not_faulty (f : Field) : valid f <-> ~ faulty f.
Proof.
  destruct f as [[text max_length] field_name]. unfold valid, faulty, check.
  rewrite validate_input_ok_iff. split.
  - intros [Hne [Hle Hb]] [E | [Hgt | Hf]]; [congruence | lia | auto].
  - intros H. repeat split.
    + intros E. apply H. now left.
    + destruct (Z_gt_le_dec (Py.len text) max_length); [|assumption].
      exfalso. apply H. right. now left.
    + intros Hf. apply H. right. now right.
Qed.

Lemma first_error_None (fs : list Field) :
  first_error fs = None <-> Forall valid fs.
Proof.
  induction fs as [|f fs' IH]; cbn [first_error].
  - split; auto.
  - destruct (check_result f) as [Hv | [msg Hm]].
    + rewrite Hv. rewrite IH. split; intros H.
      * now constructor.
      * now inversion H.
    + rewrite Hm. split; intros H; [discriminate|].
      inversion H as [|? ? Hv ?]. unfold valid in Hv. congruence.
Qed.

Lemma first_error_Some (fs : list Field) (e : option Py.str) :
  first_error fs = Some e -> exists msg, e = Some msg.
Proof.
  induction fs as [|f fs' IH]; cbn [first_error]; [discriminate|].
  destruct (check_result f) as [Hv | [msg Hm]].
  - rewrite Hv. exact IH.
  - rewrite Hm. intros H. injection H as <-. now exists msg.
Qed.

(** The first failing field decides the message, whatever follows it. *)
Lemma first_error_at (fs : list Field) :
  forall (k : nat) (f : Field) (e : option Py.str),
    nth_error fs k = Some f ->
    (forall j f', (j < k)%nat -> nth_error fs j = Some f' -> valid f') ->
    check f = (false, e) ->
    first_error fs = Some e.
Proof.
  induction fs as [|f0 fs' IH]; intros k f e Hk Hbefore Hf.
  - destruct k; discriminate.
  - destruct k as [|k'].
    + injection Hk as ->. cbn [first_error]. now rewrite Hf.
    + cbn [first_error].
      rewrite (Hbefore 0%nat f0 ltac:(lia) eq_refl).
      apply (IH k' f e Hk); [|assumption].
      intros j f' Hj Hn. apply (Hbefore (S j) f'); [lia | exact Hn].
Qed.

(** The first failing field: its position, with every field before it
    valid. *)
Lemma first_error_position (fs : list Field) (e : option Py.str) :
  first_error fs = Some e ->
  exists k f,
    nth_error fs k = Some f
    /\ (forall j f', (j < k)%nat -> nth_error fs j = Some f' -> valid f')
    /\ check f = (false, e).
Proof.
  induction fs as [|f0 fs' IH]; cbn [first_error]; [discriminate|].
  destruct (check f0) as [is_valid error_msg] eqn:E0. destruct is_valid.
  - intros H. destruct (IH H) as [k [f [Hk [Hbefore Hf]]]].
    exists (S k), f. split; [exact Hk|]. split; [|exact Hf].
    intros j f' Hj Hn. destruct j as [|j'].
    + injection Hn as <-. unfold valid.
      destruct (check_result f0) as [Hv | [msg Hm]]; [exact Hv | congruence].
    + apply (Hbefore j' f'); [lia | exact Hn].
  - intros H. injection H as <-. exists 0%nat, f0.
    split; [reflexivity|]. split; [intros j f' Hj; lia | exact E0].
Qed.

Lemma first_error_firstn (fs gs : list Field) (k : nat) (e : option Py.str) :
  first_error (firstn k fs) = Some e -> firstn k gs = firstn k fs ->
  first_error gs = Some e.
Proof.
  revert fs gs. induction k as [|k' IH]; intros fs gs He Hg; [discriminate|].
  destruct fs as [|f fs']; [discriminate|].
  destruct gs as [|g gs']; [discriminate|].
  cbn [firstn] in He, Hg. injection Hg as -> Hg'.
  cbn [first_error] in *.
  destruct (check f) as [is_valid error_msg]. destruct is_valid; [|assumption].
  now apply (IH fs' gs').
Qed.

Lemma first_error_faulty (fs : list Field) :
  Exists faulty fs -> exists msg, first_error fs = Some (Some msg).
Proof.
  intros H. destruct (first_error fs) as [e|] eqn:E.
  - destruct (first_error_Some _ _ E) as [msg ->]. now exists msg.
  - exfalso. apply first_error_None in E.
    apply Exists_exists in H. destruct H as [f [Hin Hf]].
    rewrite Forall_forall in E. apply (valid_iff_not_faulty f); auto.
Qed.

(** Every submit request leaves the store as it was or appends the one
    submission built from the request, the latter only below the limit. *)
Lemma home_post_store (submissions : Store) (form : Form) (now : Py.str) :
  store (home_post submissions form now) = submissions
  \/ (Py.len submissions < MAX_SUBMISSIONS
      /\ home_post submissions form now = accept_outcome submissions form now).
Proof.
  rewrite home_post_eq.
  destruct (first_error (fields form)) as [e|]; [now left|].
  destruct (Py.len submissions >=? MAX_SUBMISSIONS) eqn:E; [now left | right].
  split; [|reflexivity]. rewrite Z.geb_leb, Z.leb_gt in E. exact E.
Qed.

Lemma accepted_iff (submissions : Store) (form : Form) (now : Py.str) :
  accepted (home_post submissions form now)
  <-> Forall valid (fields form) /\ Py.len submissions < MAX_SUBMISSIONS.
Proof.
  rewrite home_post_eq, <- first_error_None. unfold accepted.
  destruct (first_error (fields form)) as [e|].
  - split; [discriminate | intros [H _]; discriminate].
  - destruct (Py.len submissions >=? MAX_SUBMISSIONS) eqn:E.
    + rewrite Z.geb_leb, Z.leb_le in E.
      split; [discriminate | intros [_ H]; lia].
    + rewrite Z.geb_leb, Z.leb_gt in E. split; auto.
Qed.

Lemma accepted_outcome (submissions : Store) (form : Form) (now : Py.str) :
  accepted (home_post submissions form now) ->
  home_post submissions form now = accept_outcome submissions form now.
Proof.
  intros H. destruct (home_post_store submissions form now) as [_|[_ E]]; [|exact E].
  apply accepted_iff in H. destruct H as [Hv Hl].
  rewrite home_post_eq. apply first_error_None in Hv. rewrite Hv.
  destruct (Py.len submissions >=? MAX_SUBMISSIONS) eqn:E; [|reflexivity].
  rewrite Z.geb_leb, Z.leb_le in E. lia.
Qed.

(** The six fields, spelled out. *)
Lemma fields_explicit (form : Form) :
  fields form
  = [ (Py.strip (form_get form (Py.lit "category") []), 100, Py.lit "Category");
      (Py.strip (form_get form (Py.lit "item1") []), 200, Py.lit "Item 1");
      (Py.strip (form_get form (Py.lit "item2") []), 200, Py.lit "Item 2");
      (Py.strip (form_get form (Py.lit "item3") []), 200, Py.lit "Item 3");
      (Py.strip (form_get form (Py.lit "item4") []), 200, Py.lit "Item 4");
      (Py.strip (form_get form (Py.lit "item5") []), 200, Py.lit "Item 5") ].
Proof. reflexivity. Qed.

(** C1. A submit request in which one of the six trimmed fields is empty,
    longer than its maximum (100 for the category, 200 for an item) or
    holds one of <, >, double quote, single quote is rejected: the handler
    only flashes a validation message as an error and redirects, and the
    store after the request is the store before it, with the same size. *)
Theorem invalid_submit_rejected (submissions : Store) (form : Form) (now : Py.str) :
  Exists faulty (fields form) ->
  (exists msg, rejected_with submissions (home_post submissions form now) msg)
  /\ store (home_post submissions form now) = submissions
  /\ Py.len (store (home_post submissions form now)) = Py.len submissions.
Proof.
  intros H. destruct (first_error_faulty _ H) as [msg Hm].
  rewrite home_post_eq, Hm. split; [|split; reflexivity].
  exists msg. reflexivity.
Qed.

Lemma run_app (reqs1 reqs2 : list Request) :
  forall submissions,
    run submissions (reqs1 ++ reqs2) = run (run submissions reqs1) reqs2.
Proof.
  induction reqs1 as [|r reqs1' IH]; intros s; [reflexivity|].
  cbn [run app]. apply IH.
Qed.

Lemma appended_same (submissions : Store) : appended submissions submissions = [].
Proof. unfold appended. apply skipn_all. Qed.

Lemma appended_one (submissions : Store) (sub : Submission.t) :
  appended submissions (submissions ++ [sub]) = [sub].
Proof.
  unfold appended. rewrite skipn_app, skipn_all, Nat.sub_diag. reflexivity.
Qed.

(** While nothing is created, an empty store stays empty. *)
Lemma run_nothing_created (reqs : list Request) :
  assigned_ids [] reqs = [] -> run [] reqs = [].
Proof.
  induction reqs as [|r reqs' IH]; [reflexivity|].
  cbn [assigned_ids run]. intros H. apply app_eq_nil in H. destruct H as [H1 H2].
  destruct r as [|form now|]; cbn [handle] in *.
  - now apply IH.
  - destruct (home_post_store [] form now) as [E | [_ E]].
    + rewrite E in *. now apply IH.
    + rewrite E in H1. cbn [accept_outcome store] in H1.
      rewrite appended_one in H1. discriminate.
  - now apply IH.
Qed.

(** C4. An accepted submit request appends exactly one submission at the
    end of the store; its id is the size of the store before the request
    plus one, and it carries the trimmed category, the trimmed items and
    the time of the request.  In particular the first submission accepted
    after a clear has id 1. *)
Theorem accepted_submission_id (submissions : Store) (form : Form) (now : Py.str) :
  accepted (home_post submissions form now) ->
  exists sub,
    store (home_post submissions form now) = submissions ++ [sub]
    /\ Submission.id sub = Py.len submissions + 1
    /\ Submission.category sub = form_category form
    /\ Submission.five sub = form_items form
    /\ Submission.timestamp sub = now
    /\ (forall before reqs,
           submissions = run (store (clear_submissions before)) reqs ->
           assigned_ids (store (clear_submissions before)) reqs = [] ->
           Submission.id sub = 1).
Proof.
  intros H. exists (new_submission submissions form now).
  rewrite (accepted_outcome _ _ _ H). repeat split.
  intros before reqs -> Hnone. cbn [clear_submissions store] in *.
  rewrite (run_nothing_created _ Hnone). reflexivity.
Qed.

(** ** The limit on the store *)

Lemma len_app_one {A : Type} (l : list A) (x : A) : Py.len (l ++ [x]) = Py.len l + 1.
Proof. unfold Py.len. rewrite length_app. cbn [List.length]. lia. Qed.

Lemma handle_bound (submissions : Store) (r : Request) :
  Py.len submissions <= MAX_SUBMISSIONS ->
  Py.len (store (handle submissions r)) <= MAX_SUBMISSIONS.
Proof.
  intros H. destruct r as [|form now|]; cbn [handle].
  - exact H.
  - destruct (home_post_store submissions form now) as [E | [Hlt E]].
    + now rewrite E.
    + rewrite E. cbn [accept_outcome store]. rewrite len_app_one. lia.
  - cbn [clear_submissions store]. unfold Py.len, MAX_SUBMISSIONS. cbn. lia.
Qed.

Lemma run_bound (reqs : list Request) :
  forall submissions,
    Py.len submissions <= MAX_SUBMISSIONS ->
    Py.len (run submissions reqs) <= MAX_SUBMISSIONS.
Proof.
  induction reqs as [|r reqs' IH]; intros s H; [exact H|].
  cbn [run]. apply IH. now apply handle_bound.
Qed.

(** C5. Every store reachable from the empty start-up store holds at most
    1000 submissions; and when all six fields of a submit request are valid
    while the store holds at least 1000, the request only flashes the fixed
    limit notice, logs a warning and redirects, leaving the store as it was,
    of size 1000. *)
Theorem store_bounded (reqs : list Request) :
  let submissions := run initial reqs in
  Py.len submissions <= 1000
  /\ forall form now,
      Forall valid (fields form) ->
      Py.len submissions >= 1000 ->
      home_post submissions form now = limit_outcome submissions
      /\ flashes (home_post submissions form now) = [limit_notice]
      /\ store (home_post submissions form now) = submissions
      /\ Py.len (store (home_post submissions form now)) = 1000.
Proof.
  intros submissions.
  assert (Hb : Py.len submissions <= MAX_SUBMISSIONS).
  { apply run_bound. unfold initial, Py.len, MAX_SUBMISSIONS. cbn. lia. }
  split; [exact Hb|].
  intros form now Hv Hfull.
  assert (E : home_post submissions form now = limit_outcome submissions).
  { rewrite home_post_eq. apply first_error_None in Hv. rewrite Hv.
    destruct (Py.len submissions >=? MAX_SUBMISSIONS) eqn:G; [reflexivity|].
    rewrite Z.geb_leb, Z.leb_gt in G. unfold MAX_SUBMISSIONS in G. lia. }
  rewrite E. repeat split. cbn [limit_outcome store].
  unfold MAX_SUBMISSIONS in Hb. lia.
Qed.

(** ** The order of validation *)

(** C8. The category is validated first and then the items 1 to 5 in
    order: when a field fails and every field before it is valid, the
    notice flashed is the message of that field, in the category error,
    the store is left as it was and the response redirects; the same
    notice is flashed for every request that agrees with it on the fields
    up to and including that one: the fields after the first failing one
    play no part. *)
Theorem first_failing_field_reported (submissions : Store) (form : Form) (now : Py.str) :
  fields form
  = [ (Py.strip (form_get form (Py.lit "category") []), 100, Py.lit "Category");
      (Py.strip (form_get form (Py.lit "item1") []), 200, Py.lit "Item 1");
      (Py.strip (form_get form (Py.lit "item2") []), 200, Py.lit "Item 2");
      (Py.strip (form_get form (Py.lit "item3") []), 200, Py.lit "Item 3");
      (Py.strip (form_get form (Py.lit "item4") []), 200, Py.lit "Item 4");
      (Py.strip (form_get form (Py.lit "item5") []), 200, Py.lit "Item 5") ]
  /\ forall (k : nat) (f : Field) (error_msg : option Py.str),
      nth_error (fields form) k = Some f ->
      (forall j f', (j < k)%nat -> nth_error (fields form) j = Some f' -> valid f') ->
      check f = (false, error_msg) ->
      (exists msg, error_msg = Some msg)
      /\ flashes (home_post submissions form now) = [(error_msg, Py.lit "error")]
      /\ store (home_post submissions form now) = submissions
      /\ response (home_post submissions form now) = Redirect (Py.lit "home")
      /\ forall form' now',
          firstn (S k) (fields form') = firstn (S k) (fields form) ->
          flashes (home_post submissions form' now') = [(error_msg, Py.lit "error")]
          /\ store (home_post submissions form' now') = submissions
          /\ response (home_post submissions form' now') = Redirect (Py.lit "home").
Proof.
  split; [reflexivity|].
  intros k f e Hk Hbefore Hf.
  assert (Hfirst : first_error (firstn (S k) (fields form)) = Some e).
  { apply (first_error_at _ k f e).
    - rewrite nth_error_firstn.
      destruct (Nat.ltb_spec k (S k)); [exact Hk | lia].
    - intros j f' Hj Hn. rewrite nth_error_firstn in Hn.
      destruct (Nat.ltb_spec j (S k)); [|discriminate].
      now apply (Hbefore j f').
    - exact Hf. }
  split.
  { destruct (check_result f) as [Hv | [msg Hm]].
    - unfold valid in Hv. congruence.
    - exists msg. congruence. }
  rewrite home_post_eq, (first_error_firstn _ (fields form) _ _ Hfirst eq_refl).
  cbn [reject flashes store response].
  split; [reflexivity|]. split; [reflexivity|]. split; [reflexivity|].
  intros form' now' Hagree.
  rewrite home_post_eq, (first_error_firstn _ (fields form') _ _ Hfirst Hagree).
  repeat split.
Qed.

(** ** Identifiers *)

Lemma strictly_sorted_NoDup (l : list Z) : StronglySorted Z.lt l -> NoDup l.
Proof.
  induction 1 as [|a l Hs IH Hall]; constructor; [|exact IH].
  intros Hin. rewrite Forall_forall in Hall. specialize (Hall a Hin). lia.
Qed.

(** Without a clear, the ids assigned grow strictly and lie above the
    size of the store the run starts from. *)
Lemma assigned_ids_increasing (reqs : list Request) :
  forall submissions,
    Forall (fun r => is_clear r = false) reqs ->
    StronglySorted Z.lt (assigned_ids submissions reqs)
    /\ Forall (fun i => Py.len submissions < i) (assigned_ids submissions reqs).
Proof.
  induction reqs as [|r reqs' IH]; intros s Hnc; cbn [assigned_ids].
  - split; constructor.
  - inversion Hnc as [|? ? Hr Hrest]; subst.
    assert (Hsame : store (handle s r) = s ->
                    StronglySorted Z.lt
                      (map Submission.id (appended s (store (handle s r)))
                         ++ assigned_ids (store (handle s r)) reqs')
                    /\ Forall (fun i => Py.len s < i)
                         (map Submission.id (appended s (store (handle s r)))
                            ++ assigned_ids (store (handle s r)) reqs')).
    { intros E. rewrite E, appended_same. cbn [map app]. now apply IH. }
    destruct r as [|form now|]; cbn [is_clear] in Hr; try discriminate.
    + now apply Hsame.
    + destruct (home_post_store s form now) as [E | [_ E]]; [now apply Hsame|].
      cbn [handle]. rewrite E. cbn [accept_outcome store].
      rewrite appended_one. cbn [map app new_submission Submission.id].
      destruct (IH (s ++ [new_submission s form now]) Hrest) as [Hs Hall].
      rewrite len_app_one in Hall. split.
      * constructor; [exact Hs | exact Hall].
      * constructor; [lia|].
        eapply Forall_impl; [|exact Hall]. cbn beta. intros i Hi. lia.
Qed.

(** C3 (amended). In a run of requests without a clear, from any store,
    the ids assigned to the created submissions are strictly increasing,
    so none is used twice.  (A clear restarts the ids at 1.) *)
Theorem ids_increasing_without_clear (submissions : Store) (reqs : list Request) :
  Forall (fun r => is_clear r = false) reqs ->
  StronglySorted Z.lt (assigned_ids submissions reqs)
  /\ NoDup (assigned_ids submissions reqs).
Proof.
  intros H. destruct (assigned_ids_increasing reqs submissions H) as [Hs _].
  split; [exact Hs | now apply strictly_sorted_NoDup].
Qed.

(** ** The display flow and the clear action *)

(** C6. The display flow lists the stored submissions in reverse order of
    insertion: entry [i] of the listing is entry [size - 1 - i] of the
    store; after two accepted submissions in sequence the listing starts
    with the second, then the first, followed by the earlier listing. *)
Theorem listing_newest_first (submissions : Store) :
  listing submissions = rev submissions
  /\ (forall i, (i < List.length submissions)%nat ->
       nth_error (listing submissions) i
       = nth_error submissions (List.length submissions - S i))
  /\ (forall form1 now1 form2 now2,
       let o1 := home_post submissions form1 now1 in
       let o2 := home_post (store o1) form2 now2 in
       accepted o1 -> accepted o2 ->
       exists first second,
         store o1 = submissions ++ [first]
         /\ store o2 = submissions ++ [first; second]
         /\ listing (store o2) = second :: first :: listing submissions).
Proof.
  split; [reflexivity|]. split.
  - intros i Hi. unfold listing. cbn [handle home_get response rendered].
    unfold Py.reversed. rewrite nth_error_rev.
    destruct (Nat.ltb_spec i (List.length submissions)); [reflexivity | lia].
  - intros form1 now1 form2 now2 o1 o2 H1 H2. subst o2.
    exists (new_submission submissions form1 now1),
           (new_submission (store o1) form2 now2).
    assert (E1 : o1 = accept_outcome submissions form1 now1)
      by (now apply accepted_outcome).
    rewrite (accepted_outcome _ _ _ H2). rewrite E1.
    cbn [accept_outcome store]. split; [reflexivity|]. split.
    + rewrite <- app_assoc. reflexivity.
    + unfold listing. cbn [handle home_get response rendered]. unfold Py.reversed.
      rewrite !rev_app_distr. reflexivity.
Qed.

(** C7. The clear action empties the store in one step, whatever it held:
    afterwards the store has size 0 and the listing is empty. *)
Theorem clear_empties_store (submissions : Store) :
  store (handle submissions POST_clear) = []
  /\ Py.len (store (handle submissions POST_clear)) = 0
  /\ listing (store (handle submissions POST_clear)) = [].
Proof. repeat split. Qed.

(** C9. The display flow only reads: it leaves the store as it is, a
    second display request returns the response of the first, and any
    number of display requests leave the store unchanged. *)
Theorem listing_idempotent (submissions : Store) :
  store (handle submissions GET_home) = submissions
  /\ handle (store (handle submissions GET_home)) GET_home
     = handle submissions GET_home
  /\ listing (store (handle submissions GET_home)) = listing submissions
  /\ forall n, run submissions (repeat GET_home n) = submissions.
Proof.
  repeat split. intros n. induction n as [|n' IH]; [reflexivity | exact IH].
Qed.

(** ** Fields absent from the request body *)

Lemma str_eqb_eq (a : Py.str) : forall b, Py.str_eqb a b = true -> a = b.
Proof.
  induction a as [|x a' IH]; intros [|y b']; cbn [Py.str_eqb]; try discriminate.
  - reflexivity.
  - intros H. apply andb_prop in H. destruct H as [Hx Ha].
    apply N.eqb_eq in Hx. apply IH in Ha. now subst.
Qed.

Lemma form_get_absent (form : Form) (key : Py.str) :
  absent form key -> form_get form key [] = [].
Proof. unfold absent, form_get. now intros ->. Qed.

Lemma form_get_cons_empty (form : Form) (key : Py.str) :
  absent form key ->
  forall key', form_get ((key, []) :: form) key' [] = form_get form key' [].
Proof.
  intros Habs key'. unfold form_get at 1. cbn [find fst snd].
  destruct (Py.str_eqb key key') eqn:E; [|reflexivity].
  apply str_eqb_eq in E. subst key'. symmetry. now apply form_get_absent.
Qed.

(** The handler reads the form only through [get] with default [""]. *)
Lemma home_post_ext (submissions : Store) (form form' : Form) (now : Py.str) :
  (forall key, form_get form' key [] = form_get form key []) ->
  home_post submissions form' now = home_post submissions form now.
Proof.
  intros H. unfold home_post. rewrite H.
  assert (E : map (fun i => Py.strip (form_get form' (Py.lit "item" ++ Py.str_of_int i) []))
                  (Py.range 1 6)
              = map (fun i => Py.strip (form_get form (Py.lit "item" ++ Py.str_of_int i) []))
                    (Py.range 1 6)).
  { apply map_ext. intros i. now rewrite H. }
  rewrite E. reflexivity.
Qed.

Lemma field_of_key (form : Form) (k : nat) (key name : Py.str) :
  nth_error form_keys k = Some (key, name) ->
  exists max_length,
    nth_error (fields form) k
    = Some (Py.strip (form_get form key []), max_length, name).
Proof.
  intros H. rewrite fields_explicit.
  do 6 (destruct k as [|k];
        [ injection H as <- <-; eexists; reflexivity | ]).
  destruct k; discriminate.
Qed.

(** C10 (amended). A field absent from the body of a submit request is
    read as the empty string: the request has the outcome of the same
    request with that field posted empty, the store is unchanged, the
    response redirects, and the one notice flashed, in the category error,
    is the message of the first failing field in the order of validation,
    which is the absent field or one before it; when every field before
    the absent one is valid, it is the empty-field message of the absent
    field.  A request without any form data is rejected with the
    empty-field message of the category. *)
Theorem absent_field_read_as_empty (submissions : Store) (form : Form) (now : Py.str) :
  form_keys
  = [ (Py.lit "category", Py.lit "Category");
      (Py.lit "item1", Py.lit "Item 1"); (Py.lit "item2", Py.lit "Item 2");
      (Py.lit "item3", Py.lit "Item 3"); (Py.lit "item4", Py.lit "Item 4");
      (Py.lit "item5", Py.lit "Item 5") ]
  /\ (forall k key name,
       nth_error form_keys k = Some (key, name) ->
       absent form key ->
       form_get form key [] = []
       /\ home_post submissions ((key, []) :: form) now
          = home_post submissions form now
       /\ store (home_post submissions form now) = submissions
       /\ response (home_post submissions form now) = Redirect (Py.lit "home")
       /\ (exists j text max_length field_name msg,
             (j <= k)%nat
             /\ nth_error (fields form) j = Some (text, max_length, field_name)
             /\ (forall i f', (i < j)%nat ->
                   nth_error (fields form) i = Some f' -> valid f')
             /\ validate_input text max_length field_name = (false, Some msg)
             /\ flashes (home_post submissions form now)
                = [(Some msg, Py.lit "error")])
       /\ ((forall j f', (j < k)%nat -> nth_error (fields form) j = Some f' -> valid f') ->
           flashes (home_post submissions form now)
           = [(Some (name ++ Py.lit " cannot be empty"), Py.lit "error")]))
  /\ flashes (home_post submissions [] now)
     = [(Some (Py.lit "Category cannot be empty"), Py.lit "error")]
  /\ store (home_post submissions [] now) = submissions.
Proof.
  split; [reflexivity|]. split; [|split; reflexivity].
  intros k key name Hk Habs.
  pose proof (form_get_absent _ _ Habs) as Hget.
  destruct (field_of_key form k key name Hk) as [max_length Hf].
  rewrite Hget in Hf. change (Py.strip []) with (@nil N) in Hf.
  assert (Hfaulty : Exists faulty (fields form)).
  { apply Exists_exists. eexists. split; [eapply nth_error_In; exact Hf|].
    cbn. now left. }
  destruct (first_error_faulty _ Hfaulty) as [msg Hm].
  split; [exact Hget|]. split.
  { apply home_post_ext. now apply form_get_cons_empty. }
  split; [now rewrite home_post_eq, Hm|].
  split; [now rewrite home_post_eq, Hm|].
  split.
  - destruct (first_error_position _ _ Hm)
      as [j [[[text m] field_name] [Hj [Hbefore Hcheck]]]].
    exists j, text, m, field_name, msg.
    split; [|split; [exact Hj | split; [exact Hbefore | split; [exact Hcheck|]]]].
    + destruct (Nat.le_gt_cases j k) as [Hle | Hgt]; [exact Hle|].
      pose proof (Hbefore k _ Hgt Hf) as Hv. unfold valid, check in Hv.
      rewrite validate_input_empty in Hv. discriminate.
    + now rewrite home_post_eq, Hm.
  - intros Hbefore. rewrite home_post_eq.
    rewrite (first_error_at (fields form) k _ _ Hf Hbefore (validate_input_empty _ _)).
    reflexivity.
Qed.

(** ** The properties at sample requests *)

Lemma invalid_submit_rejected_witness :
  Exists faulty (fields script_form)
  /\ (exists msg, rejected_with initial (home_post initial script_form noon) msg)
  /\ store (home_post initial script_form noon) = initial
  /\ Py.len (store (home_post initial script_form noon)) = Py.len initial.
Proof.
  assert (H : Exists faulty (fields script_form)).
  { apply Exists_cons_hd. vm_compute. right. right.
    exists 60%N. split; left; reflexivity. }
  split; [exact H | exact (invalid_submit_rejected initial script_form noon H)].
Defined.

Lemma validate_input_spec_witness :
  validate_input (Py.lit "<script>") 100 (Py.lit "Category")
  = (false, Some (Py.lit "Category contains invalid characters"))
  /\ validate_input (repeat 97%N 201) 200 (Py.lit "Item 3")
     = (false, Some (Py.lit "Item 3 exceeds maximum length of 200 characters"))
  /\ validate_input (Py.lit "Movies") 100 (Py.lit "Category") = (true, None).
Proof.
  split; [|split].
  - refine (proj2 (proj2 (proj2
              (validate_input_spec (Py.lit "<script>") 100 (Py.lit "Category")))) _ _ _).
    + discriminate.
    + vm_compute. discriminate.
    + exists 60%N. vm_compute. split; left; reflexivity.
  - refine (proj1 (proj2 (proj2
              (validate_input_spec (repeat 97%N 201) 200 (Py.lit "Item 3")))) _ _).
    + discriminate.
    + vm_compute. reflexivity.
  - apply (proj1 (validate_input_spec (Py.lit "Movies") 100 (Py.lit "Category"))).
    split; [discriminate|]. split; [vm_compute; discriminate|].
    intros [c [Hc Hin]]. vm_compute in Hc, Hin.
    repeat (destruct Hc as [<- | Hc];
            [ repeat (destruct Hin as [Hin | Hin]; [discriminate|]); exact Hin | ]).
    exact Hc.
Defined.

(** C3, as stated, fails: the submission created after a clear gets the
    id 1 that the first submission already had. *)
Lemma ids_reused_after_clear :
  assigned_ids initial [POST_home movies noon; POST_clear; POST_home movies later]
  = [1; 1]
  /\ ~ NoDup (assigned_ids initial
                [POST_home movies noon; POST_clear; POST_home movies later]).
Proof.
  split; [vm_compute; reflexivity|].
  intros H. vm_compute in H. inversion H as [|? ? Hnotin _].
  apply Hnotin. now left.
Qed.

Lemma ids_increasing_without_clear_witness :
  StronglySorted Z.lt
    (assigned_ids initial
       [POST_home movies noon; GET_home; POST_home script_form noon;
        POST_home movies later])
  /\ NoDup
       (assigned_ids initial
          [POST_home movies noon; GET_home; POST_home script_form noon;
           POST_home movies later]).
Proof. apply ids_increasing_without_clear. repeat constructor. Defined.

Lemma accepted_submission_id_witness :
  let before := run initial [POST_home movies noon; POST_home movies later] in
  let submissions :=
    run (store (clear_submissions before)) [GET_home; POST_home script_form noon] in
  accepted (home_post submissions movies later)
  /\ exists sub,
      store (home_post submissions movies later) = submissions ++ [sub]
      /\ Submission.id sub = 1.
Proof.
  intros before submissions.
  assert (H : accepted (home_post submissions movies later))
    by (vm_compute; reflexivity).
  split; [exact H|].
  destruct (accepted_submission_id submissions movies later H)
    as [sub [E [_ [_ [_ [_ Hclear]]]]]].
  exists sub. split; [exact E|].
  apply (Hclear before [GET_home; POST_home script_form noon]);
    vm_compute; reflexivity.
Defined.

Lemma store_bounded_witness :
  let submissions := run initial (repeat (POST_home movies noon) 1000) in
  Forall valid (fields movies)
  /\ Py.len submissions = 1000
  /\ home_post submissions movies later = limit_outcome submissions
  /\ Py.len (store (home_post submissions movies later)) = 1000.
Proof.
  intros submissions.
  assert (Hv : Forall valid (fields movies))
    by (repeat constructor; vm_compute; reflexivity).
  assert (Hlen : Py.len submissions = 1000) by (vm_compute; reflexivity).
  pose proof (store_bounded (repeat (POST_home movies noon) 1000)) as H.
  cbv zeta in H.
  change (run initial (repeat (POST_home movies noon) 1000)) with submissions in H.
  clearbody submissions.
  destruct H as [_ H].
  assert (Hfull : Py.len submissions >= 1000) by (rewrite Hlen; lia).
  destruct (H movies later Hv Hfull) as [E [_ [_ L]]].
  split; [exact Hv|]. split; [exact Hlen|]. split; [exact E | exact L].
Defined.

Lemma listing_newest_first_witness :
  exists first second,
    run initial [POST_home movies noon; POST_home movies later] = [first; second]
    /\ listing (run initial [POST_home movies noon; POST_home movies later])
       = [second; first].
Proof.
  destruct (listing_newest_first initial) as [_ [_ H]].
  destruct (H movies noon movies later) as [first [second [_ [E L]]]];
    [vm_compute; reflexivity | vm_compute; reflexivity |].
  exists first, second. split; [exact E | exact L].
Defined.

Lemma first_failing_field_reported_witness :
  flashes (home_post initial long_item3_form noon)
  = [(Some (Py.lit "Item 3 exceeds maximum length of 200 characters"),
      Py.lit "error")]
  /\ store (home_post initial long_item3_form noon) = initial.
Proof.
  destruct (first_failing_field_reported initial long_item3_form noon) as [_ H].
  destruct (H 3%nat (repeat 97%N 201, 200, Py.lit "Item 3")
              (Some (Py.lit "Item 3 exceeds maximum length of 200 characters")))
    as [_ [F [S _]]].
  - vm_compute. reflexivity.
  - intros j f' Hj Hn.
    destruct j as [|[|[|j]]]; [| | |lia];
      vm_compute in Hn; injection Hn as <-; vm_compute; reflexivity.
  - vm_compute. reflexivity.
  - split; [exact F | exact S].
Defined.

(** C10, as stated, fails: the first field absent from this body is
    item1, yet the message is that of the category, which is present and
    holds a refused character. *)
Lemma absent_field_not_first_error :
  ~ absent markup_only_form (Py.lit "category")
  /\ absent markup_only_form (Py.lit "item1")
  /\ home_post initial markup_only_form noon
     = reject initial (Some (Py.lit "Category contains invalid characters"))
  /\ home_post initial markup_only_form noon
     <> reject initial (Some (Py.lit "Item 1 cannot be empty"))
  /\ flashes (home_post initial markup_only_form noon)
     = [(Some (Py.lit "Category contains invalid characters"), Py.lit "error")]
  /\ flashes (home_post initial markup_only_form noon)
     <> [(Some (Py.lit "Item 1 cannot be empty"), Py.lit "error")].
Proof.
  split; [vm_compute; discriminate|].
  split; [vm_compute; reflexivity|].
  split; [vm_compute; reflexivity|].
  split; [vm_compute; discriminate|].
  split; [vm_compute; reflexivity|].
  vm_compute. discriminate.
Qed.

Lemma absent_field_read_as_empty_witness :
  absent no_item2_form (Py.lit "item2")
  /\ home_post initial ((Py.lit "item2", []) :: no_item2_form) noon
     = home_post initial no_item2_form noon
  /\ store (home_post initial no_item2_form noon) = initial
  /\ flashes (home_post initial no_item2_form noon)
     = [(Some (Py.lit "Item 2 cannot be empty"), Py.lit "error")].
Proof.
  assert (Habs : absent no_item2_form (Py.lit "item2")) by (vm_compute; reflexivity).
  destruct (absent_field_read_as_empty initial no_item2_form noon) as [_ [H _]].
  destruct (H 2%nat (Py.lit "item2") (Py.lit "Item 2") eq_refl Habs)
    as [_ [E [S [_ [_ R]]]]].
  split; [exact Habs|]. split; [exact E|]. split; [exact S|].
  apply R. intros j f' Hj Hn.
  destruct j as [|[|j]]; [| |lia];
    vm_compute in Hn; injection Hn as <-; vm_compute; reflexivity.
Defined.

(** ** Trimming *)

Lemma lstrip_app (a b : Py.str) :
  Py.lstrip (a ++ b)
  = if forallb Py.isspace a then Py.lstrip b else Py.lstrip a ++ b.
Proof.
  induction a as [|c a' IH]; [reflexivity|].
  cbn [app Py.lstrip forallb]. destruct (Py.isspace c); cbn [andb]; auto.
Qed.

Lemma lstrip_nil_iff (s : Py.str) : Py.lstrip s = [] <-> all_space s.
Proof.
  unfold all_space. induction s as [|c s' IH]; cbn [Py.lstrip forallb].
  - split; reflexivity.
  - destruct (Py.isspace c); cbn [andb]; [exact IH|].
    split; discriminate.
Qed.

Lemma lstrip_idempotent (s : Py.str) : Py.lstrip (Py.lstrip s) = Py.lstrip s.
Proof.
  induction s as [|c s' IH]; [reflexivity|]. cbn [Py.lstrip].
  destruct (Py.isspace c) eqn:E; [exact IH|]. cbn [Py.lstrip]. now rewrite E.
Qed.

(** What [lstrip] returns is empty or starts with a character that is
    not white space. *)
Lemma lstrip_head (s : Py.str) :
  Py.lstrip s = []
  \/ exists c t, Py.lstrip s = c :: t /\ Py.isspace c = false.
Proof.
  induction s as [|c s' IH]; [now left|]. cbn [Py.lstrip].
  destruct (Py.isspace c) eqn:E; [exact IH|]. right. now exists c, s'.
Qed.

Lemma all_space_rev (s : Py.str) : all_space (rev s) <-> all_space s.
Proof.
  unfold all_space. induction s as [|c s' IH]; [split; reflexivity|].
  cbn [rev forallb]. rewrite forallb_app. cbn [forallb].
  rewrite andb_true_r, andb_comm.
  destruct (Py.isspace c); cbn [andb]; [exact IH | split; discriminate].
Qed.

Lemma rstrip_keeps_head (c : N) (t : Py.str) :
  Py.isspace c = false -> exists t', Py.rstrip (c :: t) = c :: t'.
Proof.
  intros E. unfold Py.rstrip. cbn [rev]. rewrite lstrip_app.
  destruct (forallb Py.isspace (rev t)).
  - cbn [Py.lstrip]. rewrite E. now exists [].
  - rewrite rev_app_distr. cbn [rev app]. eexists. reflexivity.
Qed.

Lemma rstrip_idempotent (s : Py.str) : Py.rstrip (Py.rstrip s) = Py.rstrip s.
Proof. unfold Py.rstrip. now rewrite rev_involutive, lstrip_idempotent. Qed.

Lemma strip_idempotent (s : Py.str) : Py.strip (Py.strip s) = Py.strip s.
Proof.
  unfold Py.strip.
  destruct (lstrip_head s) as [E | [c [t [E Hc]]]]; rewrite E.
  - reflexivity.
  - destruct (rstrip_keeps_head c t Hc) as [t' E']. rewrite E'.
    cbn [Py.lstrip]. rewrite Hc, <- E'. apply rstrip_idempotent.
Qed.

Lemma strip_nil_iff (s : Py.str) : Py.strip s = [] <-> all_space s.
Proof.
  unfold Py.strip. split.
  - intros H. destruct (lstrip_head s) as [E | [c [t [E Hc]]]].
    + now apply lstrip_nil_iff.
    + rewrite E in H. destruct (rstrip_keeps_head c t Hc) as [t' E'].
      rewrite E' in H. discriminate.
  - intros H. apply lstrip_nil_iff in H. now rewrite H.
Qed.

Lemma strip_pad (pre post s : Py.str) :
  all_space pre -> all_space post ->
  Py.strip (pre ++ s ++ post) = Py.strip s.
Proof.
  intros Hpre Hpost. unfold Py.strip.
  rewrite lstrip_app. unfold all_space in Hpre. rewrite Hpre.
  rewrite lstrip_app. destruct (forallb Py.isspace s) eqn:Hs.
  - apply lstrip_nil_iff in Hpost. rewrite Hpost.
    assert (E : Py.lstrip s = []) by (now apply lstrip_nil_iff). now rewrite E.
  - unfold Py.rstrip. rewrite rev_app_distr, lstrip_app.
    apply all_space_rev in Hpost. unfold all_space in Hpost. now rewrite Hpost.
Qed.

(** ** Invariants of the store *)

Lemma numerals_from (n : nat) :
  forall a x, In x (map Z.of_nat (seq a n)) -> Z.of_nat a <= x.
Proof.
  induction n as [|n' IH]; intros a x; cbn [seq map In]; [tauto|].
  intros [<- | H]; [lia|]. apply IH in H. lia.
Qed.

Lemma numerals_NoDup (n : nat) : forall a, NoDup (map Z.of_nat (seq a n)).
Proof.
  induction n as [|n' IH]; intros a; cbn [seq map]; constructor; [|apply IH].
  intros H. apply numerals_from in H. lia.
Qed.

Lemma handle_numbered (submissions : Store) (r : Request) :
  map Submission.id submissions
  = map Z.of_nat (seq 1 (List.length submissions)) ->
  map Submission.id (store (handle submissions r))
  = map Z.of_nat (seq 1 (List.length (store (handle submissions r)))).
Proof.
  intros H. destruct r as [|form now|]; cbn [handle]; [exact H| |reflexivity].
  destruct (home_post_store submissions form now) as [E | [_ E]];
    rewrite E; [exact H|].
  cbn [accept_outcome store].
  rewrite map_app, length_app, seq_app, map_app, H.
  cbn [List.length seq map new_submission Submission.id]. unfold Py.len.
  do 2 f_equal. lia.
Qed.

Lemma run_numbered (reqs : list Request) :
  forall submissions,
    map Submission.id submissions
    = map Z.of_nat (seq 1 (List.length submissions)) ->
    map Submission.id (run submissions reqs)
    = map Z.of_nat (seq 1 (List.length (run submissions reqs))).
Proof.
  induction reqs as [|r reqs' IH]; intros s H; [exact H|].
  cbn [run]. apply IH. now apply handle_numbered.
Qed.

(** X1. In every store reached from the empty start-up store the ids are
    1, 2, ..., size in order: the submission at position [k] (from 0) has
    id [k + 1], and no two stored submissions share an id. *)
Theorem stored_ids_consecutive (reqs : list Request) :
  let submissions := run initial reqs in
  map Submission.id submissions
  = map Z.of_nat (seq 1 (List.length submissions))
  /\ (forall k sub, nth_error submissions k = Some sub ->
                    Submission.id sub = Z.of_nat k + 1)
  /\ NoDup (map Submission.id submissions).
Proof.
  intros submissions.
  assert (H : map Submission.id submissions
              = map Z.of_nat (seq 1 (List.length submissions)))
    by (apply run_numbered; reflexivity).
  split; [exact H|]. split.
  - intros k sub Hk.
    assert (Hn : nth_error (map Submission.id submissions) k
                 = Some (Submission.id sub))
      by (rewrite nth_error_map, Hk; reflexivity).
    rewrite H, nth_error_map, nth_error_seq in Hn.
    destruct (Nat.ltb k (List.length submissions)); [|discriminate].
    cbn [option_map] in Hn. injection Hn as <-. lia.
  - rewrite H. apply numerals_NoDup.
Qed.

Lemma item_fields_clean (items : list Py.str) :
  forall idx,
    Forall valid (item_fields idx items) ->
    Forall (fun t => Py.strip t = t) items ->
    Forall (clean MAX_ITEM_LENGTH) items.
Proof.
  induction items as [|item items' IH]; intros idx Hv Ht; [constructor|].
  cbn [item_fields] in Hv.
  inversion Hv as [|? ? Hitem Hrest]; subst.
  inversion Ht as [|? ? Htrim Htrims]; subst.
  constructor; [|now apply (IH (idx + 1))].
  unfold valid, check in Hitem. apply validate_input_ok_iff in Hitem.
  unfold clean. tauto.
Qed.

Lemma form_items_trimmed (form : Form) :
  Forall (fun t => Py.strip t = t) (form_items form).
Proof.
  unfold form_items. apply Forall_map, Forall_forall.
  intros i _. apply strip_idempotent.
Qed.

Lemma new_submission_well_formed (submissions : Store) (form : Form) (now : Py.str) :
  Forall valid (fields form) -> well_formed (new_submission submissions form now).
Proof.
  intros H. unfold fields in H. apply Forall_cons_iff in H.
  destruct H as [Hcat Hitems]. unfold well_formed. cbn [new_submission Submission.category Submission.five].
  split; [|split].
  - unfold valid, check in Hcat. apply validate_input_ok_iff in Hcat.
    unfold clean. repeat split; try tauto. apply strip_idempotent.
  - reflexivity.
  - apply (item_fields_clean _ 1 Hitems), form_items_trimmed.
Qed.

Lemma handle_well_formed (submissions : Store) (r : Request) :
  Forall well_formed submissions ->
  Forall well_formed (store (handle submissions r)).
Proof.
  intros H. destruct r as [|form now|]; cbn [handle]; [exact H| |constructor].
  destruct (home_post_store submissions form now) as [E | [Hroom E]];
    [now rewrite E|].
  assert (Hv : Forall valid (fields form)).
  { apply (accepted_iff submissions form now). rewrite E. reflexivity. }
  rewrite E. cbn [accept_outcome store]. apply Forall_app. split; [exact H|].
  constructor; [|constructor]. now apply new_submission_well_formed.
Qed.

Lemma run_well_formed (reqs : list Request) :
  forall submissions,
    Forall well_formed submissions -> Forall well_formed (run submissions reqs).
Proof.
  induction reqs as [|r reqs' IH]; intros s H; [exact H|].
  cbn [run]. apply IH. now apply handle_well_formed.
Qed.

(** X2. Every submission in a store reached from the empty start-up
    store, and so every submission the display flow lists, is well formed:
    its category is trimmed, non-empty, at most 100 characters long and
    free of <, >, double quote and single quote, and it has exactly five
    items, each trimmed, non-empty, at most 200 long and free of them. *)
Theorem stored_submissions_well_formed (reqs : list Request) :
  Forall well_formed (run initial reqs)
  /\ Forall well_formed (listing (run initial reqs)).
Proof.
  assert (H : Forall well_formed (run initial reqs))
    by (apply run_well_formed; constructor).
  split; [exact H|]. unfold listing. cbn [handle home_get response rendered].
  unfold Py.reversed. now apply Forall_rev.
Qed.

(** X3. Without a clear the store only grows at its end: the submissions
    present before a run of requests are still there afterwards, unaltered
    and at the same positions, followed by the submissions the run created,
    whose ids are the ids assigned during the run. *)
Theorem store_append_only (submissions : Store) (reqs : list Request) :
  Forall (fun r => is_clear r = false) reqs ->
  exists created,
    run submissions reqs = submissions ++ created
    /\ map Submission.id created = assigned_ids submissions reqs.
Proof.
  revert submissions. induction reqs as [|r reqs' IH]; intros s Hnc.
  - exists []. split; [now rewrite app_nil_r | reflexivity].
  - inversion Hnc as [|? ? Hr Hrest]; subst. cbn [run assigned_ids].
    assert (Hsame : store (handle s r) = s ->
                    exists created,
                      run (store (handle s r)) reqs' = s ++ created
                      /\ map Submission.id created
                         = map Submission.id (appended s (store (handle s r)))
                             ++ assigned_ids (store (handle s r)) reqs').
    { intros E. rewrite E, appended_same. now apply IH. }
    destruct r as [|form now|]; cbn [is_clear] in Hr; try discriminate.
    + now apply Hsame.
    + destruct (home_post_store s form now) as [E | [_ E]]; [now apply Hsame|].
      cbn [handle]. rewrite E. cbn [accept_outcome store].
      destruct (IH (s ++ [new_submission s form now]) Hrest) as [created [Hrun Hids]].
      exists (new_submission s form now :: created). split.
      * rewrite Hrun, <- app_assoc. reflexivity.
      * rewrite appended_one. cbn [map app]. now rewrite Hids.
Qed.

(** ** What the submit flow reads of the form *)

Lemma home_post_reads (submissions : Store) (form form' : Form) (now : Py.str) :
  (forall key name, In (key, name) form_keys ->
     Py.strip (form_get form' key []) = Py.strip (form_get form key [])) ->
  home_post submissions form' now = home_post submissions form now.
Proof.
  intros H. unfold home_post.
  rewrite (H (Py.lit "category") (Py.lit "Category")) by (now left).
  assert (E : map (fun i => Py.strip (form_get form' (Py.lit "item" ++ Py.str_of_int i) []))
                  (Py.range 1 6)
              = map (fun i => Py.strip (form_get form (Py.lit "item" ++ Py.str_of_int i) []))
                    (Py.range 1 6)).
  { apply map_ext_in. intros i Hi.
    apply (H _ (Py.lit "Item " ++ Py.str_of_int i)). right.
    exact (in_map (fun i => (Py.lit "item" ++ Py.str_of_int i,
                             Py.lit "Item " ++ Py.str_of_int i)) _ _ Hi). }
  rewrite E. reflexivity.
Qed.

Lemma form_get_pad (pre post : Py.str) (form : Form) (key : Py.str) :
  all_space pre -> all_space post ->
  Py.strip (form_get (pad pre post form) key [])
  = Py.strip (form_get form key []).
Proof.
  intros Hpre Hpost. unfold form_get, pad.
  induction form as [|[k v] form' IH]; [reflexivity|].
  cbn [map find fst snd]. destruct (Py.str_eqb k key).
  - cbn [snd]. now apply strip_pad.
  - exact IH.
Qed.

(** X4. A field whose posted value is white space only is read as empty:
    the request is rejected and the store is unchanged, and when every
    field before it in the order of validation is valid the message is
    the empty-field message of that field. *)
Theorem blank_field_rejected_as_empty (submissions : Store) (form : Form) (now : Py.str)
        (k : nat) (key name : Py.str) :
  nth_error form_keys k = Some (key, name) ->
  all_space (form_get form key []) ->
  store (home_post submissions form now) = submissions
  /\ (exists msg, rejected_with submissions (home_post submissions form now) msg)
  /\ ((forall j f', (j < k)%nat -> nth_error (fields form) j = Some f' -> valid f') ->
      rejected_with submissions (home_post submissions form now)
                    (name ++ Py.lit " cannot be empty")).
Proof.
  intros Hk Hblank.
  destruct (field_of_key form k key name Hk) as [max_length Hf].
  apply strip_nil_iff in Hblank. rewrite Hblank in Hf.
  assert (Hfaulty : Exists faulty (fields form)).
  { apply Exists_exists. eexists. split; [eapply nth_error_In; exact Hf|].
    cbn. now left. }
  destruct (first_error_faulty _ Hfaulty) as [msg Hm].
  split; [now rewrite home_post_eq, Hm|].
  split; [exists msg; unfold rejected_with; now rewrite home_post_eq, Hm|].
  intros Hbefore. unfold rejected_with. rewrite home_post_eq.
  rewrite (first_error_at (fields form) k _ _ Hf Hbefore (validate_input_empty _ _)).
  reflexivity.
Qed.

(** X5. White space around the posted values plays no part: wrapping
    every value of the form in white space gives the same outcome, store
    and stored submission included. *)
Theorem surrounding_space_ignored (submissions : Store) (form : Form) (now : Py.str)
        (pre post : Py.str) :
  all_space pre -> all_space post ->
  home_post submissions (pad pre post form) now = home_post submissions form now.
Proof.
  intros Hpre Hpost. apply home_post_reads. intros key name _.
  now apply form_get_pad.
Qed.

(** X6. The submit flow reads the form only through the trimmed values
    of the six keys category, item1, ..., item5: two forms that agree on
    them have the same outcome, whatever other keys or repeated keys they
    hold. *)
Theorem only_six_keys_read (submissions : Store) (form form' : Form) (now : Py.str) :
  (forall key name, In (key, name) form_keys ->
     Py.strip (form_get form' key []) = Py.strip (form_get form key [])) ->
  home_post submissions form' now = home_post submissions form now
  /\ fields form' = fields form.
Proof.
  intros H. split; [now apply home_post_reads|].
  rewrite !fields_explicit.
  rewrite (H (Py.lit "category") (Py.lit "Category")) by (now left).
  rewrite (H (Py.lit "item1") (Py.lit "Item 1")) by (right; now left).
  rewrite (H (Py.lit "item2") (Py.lit "Item 2")) by (do 2 right; now left).
  rewrite (H (Py.lit "item3") (Py.lit "Item 3")) by (do 3 right; now left).
  rewrite (H (Py.lit "item4") (Py.lit "Item 4")) by (do 4 right; now left).
  rewrite (H (Py.lit "item5") (Py.lit "Item 5")) by (do 5 right; now left).
  reflexivity.
Qed.

(** ** The three ends of a submit request *)

(** X7. A submit request is accepted exactly when its six fields are all
    valid and the store holds fewer than 1000 submissions: then, and only
    then, the store gains the one submission built from the request, the
    success notice is flashed and the category is logged. *)
Theorem valid_submit_accepted (submissions : Store) (form : Form) (now : Py.str) :
  (Forall valid (fields form) /\ Py.len submissions < MAX_SUBMISSIONS)
  <-> home_post submissions form now = accept_outcome submissions form now.
Proof.
  split.
  - intros H. apply accepted_outcome, accepted_iff. exact H.
  - intros E. apply (accepted_iff submissions form now). rewrite E. reflexivity.
Qed.

Lemma first_error_In (fs : list Field) (e : option Py.str) :
  first_error fs = Some e -> exists f, In f fs /\ check f = (false, e).
Proof.
  induction fs as [|f fs' IH]; cbn [first_error]; [discriminate|].
  destruct (check f) as [is_valid error_msg] eqn:E. destruct is_valid.
  - intros H. destruct (IH H) as [f' [Hin Hf']]. exists f'. split; [now right | exact Hf'].
  - intros H. injection H as <-. exists f. split; [now left | exact E].
Qed.

Lemma validate_input_message (text : Py.str) (max_length : Z) (field_name msg : Py.str) :
  validate_input text max_length field_name = (false, Some msg) ->
  exists suffix, msg = field_name ++ suffix.
Proof.
  intros H.
  destruct (text_cases text max_length) as [E | [[Hne Hgt] | [[Hne [Hle Hb]] | [Hne [Hle Hb]]]]].
  - subst. rewrite validate_input_empty in H. injection H as <-. eexists. reflexivity.
  - rewrite validate_input_too_long in H by assumption. injection H as <-.
    eexists. reflexivity.
  - rewrite validate_input_forbidden in H by assumption. injection H as <-.
    eexists. reflexivity.
  - rewrite validate_input_clean in H by assumption. discriminate.
Qed.

(** A validation message starts with C (of Category) or I (of Item). *)
Lemma validation_message_head (form : Form) (msg : Py.str) :
  first_error (fields form) = Some (Some msg) ->
  exists c rest, msg = c :: rest /\ (c = 67%N \/ c = 73%N).
Proof.
  intros H. apply first_error_In in H. destruct H as [f [Hin Hf]].
  rewrite fields_explicit in Hin.
  repeat (destruct Hin as [<- | Hin];
          [ apply validate_input_message in Hf; destruct Hf as [suffix ->];
            eexists; eexists; split; [reflexivity | auto] | ]).
  destruct Hin.
Qed.

(** X8. The limit notice is flashed exactly when the six fields are all
    valid and the store holds at least 1000 submissions: a request with a
    faulty field gets its validation message also when the store is full. *)
Theorem limit_notice_iff (submissions : Store) (form : Form) (now : Py.str) :
  flashes (home_post submissions form now) = [limit_notice]
  <-> Forall valid (fields form) /\ Py.len submissions >= MAX_SUBMISSIONS.
Proof.
  rewrite home_post_eq, <- first_error_None.
  destruct (first_error (fields form)) as [e|] eqn:E.
  - split; [|intros [H _]; discriminate].
    destruct (first_error_Some _ _ E) as [msg ->].
    destruct (validation_message_head form msg E) as [c [rest [-> Hc]]].
    cbn [reject flashes]. intros H. exfalso.
    injection H as H. destruct Hc; subst c; discriminate.
  - destruct (Py.len submissions >=? MAX_SUBMISSIONS) eqn:G.
    + rewrite Z.geb_leb, Z.leb_le in G. split; [|reflexivity].
      intros _. split; [reflexivity | lia].
    + rewrite Z.geb_leb, Z.leb_gt in G. split; [discriminate|].
      intros [_ H]. lia.
Qed.

(** X9. After a run of submit requests with valid fields the store holds
    the submissions it had plus one for each request, up to the limit:
    its size is [min (size + number of requests) 1000]. *)
Theorem size_after_valid_submits (reqs : list Request) :
  forall submissions,
    Forall valid_submit reqs ->
    Py.len submissions <= MAX_SUBMISSIONS ->
    Py.len (run submissions reqs)
    = Z.min (Py.len submissions + Py.len reqs) MAX_SUBMISSIONS.
Proof.
  induction reqs as [|r reqs' IH]; intros s Hv Hb.
  - cbn [run]. change (Py.len (@nil Request)) with 0. lia.
  - inversion Hv as [|? ? Hr Hrest]; subst.
    destruct r as [|form now|]; cbn [valid_submit] in Hr; try contradiction.
    cbn [run handle]. rewrite home_post_eq.
    apply first_error_None in Hr. rewrite Hr.
    assert (Hlen : Py.len (POST_home form now :: reqs') = Py.len reqs' + 1)
      by (unfold Py.len; cbn [List.length]; lia).
    rewrite Hlen.
    assert (Hpos : 0 <= Py.len reqs') by (unfold Py.len; lia).
    destruct (Py.len s >=? MAX_SUBMISSIONS) eqn:G.
    + rewrite Z.geb_leb, Z.leb_le in G. cbn [limit_outcome store].
      rewrite (IH s Hrest Hb). lia.
    + rewrite Z.geb_leb, Z.leb_gt in G. cbn [accept_outcome store].
      rewrite IH; [|exact Hrest|rewrite len_app_one; lia].
      rewrite len_app_one. lia.
Qed.

(** X10. A clear forgets the past: whatever was served before it, the
    store after the requests that follow is the store a freshly started
    application reaches on them, and the ids assigned are the same. *)
Theorem clear_restarts (submissions : Store) (before after : list Request) :
  run submissions (before ++ POST_clear :: after) = run initial after
  /\ assigned_ids (run submissions (before ++ [POST_clear])) after
     = assigned_ids initial after.
Proof. rewrite !run_app. split; reflexivity. Qed.

(** X11. Whether [validate_input] accepts depends on the text and the
    bound alone: no text is accepted under a bound below 1, a text accepted
    under one bound is accepted under every larger one, whatever the field
    name, and the accepted texts are never empty. *)
Theorem validate_input_bounds (text : Py.str) (max_length : Z) (field_name : Py.str) :
  (max_length < 1 -> fst (validate_input text max_length field_name) = false)
  /\ (forall max_length' field_name',
        max_length <= max_length' ->
        validate_input text max_length field_name = (true, None) ->
        validate_input text max_length' field_name' = (true, None))
  /\ (validate_input text max_length field_name = (true, None) ->
      1 <= Py.len text <= max_length).
Proof.
  assert (Hpos : text <> [] -> 1 <= Py.len text).
  { destruct text; [congruence|]. intros _. unfold Py.len. cbn [List.length]. lia. }
  split; [|split].
  - intros Hsmall.
    destruct (validate_input_result text max_length field_name) as [H | [msg H]];
      [|now rewrite H].
    apply validate_input_ok_iff in H. destruct H as [Hne [Hle _]].
    specialize (Hpos Hne). lia.
  - intros max' name' Hmax H. apply validate_input_ok_iff in H.
    apply validate_input_ok_iff. destruct H as [Hne [Hle Hb]].
    repeat split; [assumption | lia | assumption].
  - intros H. apply validate_input_ok_iff in H. destruct H as [Hne [Hle _]].
    specialize (Hpos Hne). lia.
Qed.

(** X12. Every POST request, submit or clear, answers with the redirect
    to the display flow and flashes exactly one notice, which carries a
    message and one of the categories error, success, info; the store
    changes only under the categories success and info. *)
Theorem post_redirects_with_one_notice (submissions : Store) (r : Request) :
  r <> GET_home ->
  response (handle submissions r) = Redirect (Py.lit "home")
  /\ exists msg category,
      flashes (handle submissions r) = [(Some msg, category)]
      /\ In category [Py.lit "error"; Py.lit "success"; Py.lit "info"]
      /\ (category = Py.lit "error" -> store (handle submissions r) = submissions).
Proof.
  intros Hr. destruct r as [|form now|]; [congruence| |].
  - cbn [handle]. rewrite home_post_eq.
    destruct (first_error (fields form)) as [e|] eqn:E.
    + destruct (first_error_Some _ _ E) as [msg ->].
      split; [reflexivity|]. exists msg, (Py.lit "error").
      split; [reflexivity|]. split; [now left | reflexivity].
    + destruct (Py.len submissions >=? MAX_SUBMISSIONS).
      * split; [reflexivity|]. eexists. exists (Py.lit "error").
        split; [reflexivity|]. split; [now left | reflexivity].
      * split; [reflexivity|]. eexists. exists (Py.lit "success").
        split; [reflexivity|]. split; [right; now left | discriminate].
  - split; [reflexivity|]. eexists. exists (Py.lit "info").
    split; [reflexivity|]. split; [do 2 right; now left | discriminate].
Qed.

(** ** Requests that leave no trace *)

Lemma leaves_no_trace_store (submissions : Store) (r : Request) :
  leaves_no_trace r = true -> store (handle submissions r) = submissions.
Proof.
  destruct r as [|form now|]; cbn [leaves_no_trace handle]; [reflexivity| |discriminate].
  rewrite home_post_eq. destruct (first_error (fields form)); [reflexivity | discriminate].
Qed.

(** X13. Display requests and submit requests with a faulty field leave
    no trace: dropping them from a run of requests changes neither the
    store reached nor the ids assigned. *)
Theorem no_trace_requests_dropped (reqs : list Request) :
  forall submissions,
    run submissions (filter (fun r => negb (leaves_no_trace r)) reqs)
    = run submissions reqs
    /\ assigned_ids submissions (filter (fun r => negb (leaves_no_trace r)) reqs)
       = assigned_ids submissions reqs.
Proof.
  induction reqs as [|r reqs' IH]; intros s; [split; reflexivity|].
  cbn [filter]. destruct (leaves_no_trace r) eqn:E; cbn [negb].
  - cbn [run assigned_ids]. rewrite (leaves_no_trace_store s r E), appended_same.
    apply IH.
  - cbn [run assigned_ids]. destruct (IH (store (handle s r))) as [H1 H2].
    now rewrite H1, H2.
Qed.

(** X14. The display flow lists the ids downwards: in every store reached
    from the empty start-up store the listing carries the ids size,
    size - 1, ..., 1 in this order. *)
Theorem listing_ids_descending (reqs : list Request) :
  map Submission.id (listing (run initial reqs))
  = map Z.of_nat (rev (seq 1 (List.length (run initial reqs)))).
Proof.
  unfold listing. cbn [handle home_get response rendered]. unfold Py.reversed.
  rewrite !map_rev. f_equal. apply run_numbered. reflexivity.
Qed.

(** X15. A rejection always reports the first faulty field: when a
    submit request is rejected with a message, one of the six fields fails
    with exactly that message, every field before it is valid, and the
    message starts with the name of that field. *)
Theorem rejection_names_first_faulty_field (submissions : Store) (form : Form)
        (now msg : Py.str) :
  rejected_with submissions (home_post submissions form now) msg ->
  exists k text max_length field_name suffix,
    nth_error (fields form) k = Some (text, max_length, field_name)
    /\ (forall j f', (j < k)%nat -> nth_error (fields form) j = Some f' -> valid f')
    /\ validate_input text max_length field_name = (false, Some msg)
    /\ faulty (text, max_length, field_name)
    /\ msg = field_name ++ suffix.
Proof.
  unfold rejected_with. rewrite home_post_eq.
  destruct (first_error (fields form)) as [e|] eqn:E.
  - intros H. assert (He : e = Some msg).
    { apply (f_equal flashes) in H. cbn [reject flashes] in H. congruence. }
    subst e. destruct (first_error_position _ _ E) as [k [[[text m] name] [Hk [Hb Hf]]]].
    cbn [check] in Hf.
    destruct (validate_input_message _ _ _ _ Hf) as [suffix Hs].
    exists k, text, m, name, suffix. repeat split; try assumption.
    destruct (text_cases text m) as [E0 | [[Hne Hgt] | [[Hne [Hle Hbad]] | [Hne [Hle Hbad]]]]].
    + now left.
    + right. now left.
    + right. now right.
    + rewrite validate_input_clean in Hf by assumption. discriminate.
  - destruct (Py.len submissions >=? MAX_SUBMISSIONS); intros H;
      apply (f_equal logs) in H; discriminate.
Qed.

(** ** The further properties at sample requests *)

Lemma stored_ids_consecutive_witness :
  exists sub,
    nth_error (run initial [POST_home movies noon; POST_home script_form noon;
                            POST_home movies later]) 1 = Some sub
    /\ Submission.id sub = 2.
Proof.
  eexists. split; [vm_compute; reflexivity|].
  apply (proj1 (proj2 (stored_ids_consecutive
                         [POST_home movies noon; POST_home script_form noon;
                          POST_home movies later])) 1%nat).
  vm_compute. reflexivity.
Defined.

Lemma store_append_only_witness :
  exists created,
    run (run initial [POST_home movies noon])
        [GET_home; POST_home movies later; POST_home script_form noon]
    = run initial [POST_home movies noon] ++ created
    /\ map Submission.id created
       = assigned_ids (run initial [POST_home movies noon])
           [GET_home; POST_home movies later; POST_home script_form noon].
Proof. apply store_append_only. repeat constructor. Defined.

Lemma blank_field_rejected_as_empty_witness :
  all_space (form_get blank_item2_form (Py.lit "item2") [])
  /\ store (home_post initial blank_item2_form noon) = initial
  /\ rejected_with initial (home_post initial blank_item2_form noon)
                   (Py.lit "Item 2 cannot be empty").
Proof.
  assert (Hblank : all_space (form_get blank_item2_form (Py.lit "item2") []))
    by (vm_compute; reflexivity).
  destruct (blank_field_rejected_as_empty initial blank_item2_form noon 2
              (Py.lit "item2") (Py.lit "Item 2") eq_refl Hblank) as [S [_ R]].
  split; [exact Hblank|]. split; [exact S|].
  apply R. intros j f' Hj Hn.
  destruct j as [|[|j]]; [| |lia];
    vm_compute in Hn; injection Hn as <-; vm_compute; reflexivity.
Defined.

Lemma surrounding_space_ignored_witness :
  home_post initial (pad [32%N] [9%N; 10%N] movies) noon
  = home_post initial movies noon.
Proof.
  apply surrounding_space_ignored; vm_compute; reflexivity.
Defined.

Lemma only_six_keys_read_witness :
  home_post initial movies_with_extras noon = home_post initial movies noon
  /\ fields movies_with_extras = fields movies.
Proof.
  apply only_six_keys_read. intros key name H. vm_compute in H.
  repeat (destruct H as [H | H];
          [injection H as <- <-; vm_compute; reflexivity|]).
  destruct H.
Defined.

Lemma valid_submit_accepted_witness :
  home_post initial movies noon = accept_outcome initial movies noon
  /\ store (home_post initial movies noon) = [new_submission initial movies noon].
Proof.
  assert (E : home_post initial movies noon = accept_outcome initial movies noon).
  { apply (proj1 (valid_submit_accepted initial movies noon)). split.
    - repeat constructor; vm_compute; reflexivity.
    - vm_compute. reflexivity. }
  split; [exact E | now rewrite E].
Defined.

Lemma limit_notice_iff_witness :
  flashes (home_post initial movies noon) <> [limit_notice].
Proof.
  intros H. apply (proj1 (limit_notice_iff initial movies noon)) in H.
  destruct H as [_ H]. vm_compute in H. apply H. reflexivity.
Defined.

Lemma size_after_valid_submits_witness :
  Py.len (run initial [POST_home movies noon; POST_home movies later;
                       POST_home movies noon])
  = Z.min (Py.len initial + 3) MAX_SUBMISSIONS.
Proof.
  apply (size_after_valid_submits
           [POST_home movies noon; POST_home movies later; POST_home movies noon]
           initial).
  - repeat constructor; vm_compute; reflexivity.
  - vm_compute. discriminate.
Defined.

Lemma validate_input_bounds_witness :
  fst (validate_input (Py.lit "A") 0 (Py.lit "Category")) = false
  /\ validate_input (Py.lit "Movies") 200 (Py.lit "Item 1") = (true, None).
Proof.
  split.
  - apply (proj1 (validate_input_bounds (Py.lit "A") 0 (Py.lit "Category"))). lia.
  - apply (proj1 (proj2 (validate_input_bounds (Py.lit "Movies") 100 (Py.lit "Category")))).
    + lia.
    + vm_compute. reflexivity.
Defined.

Lemma post_redirects_with_one_notice_witness :
  response (handle (run initial [POST_home movies noon]) POST_clear)
  = Redirect (Py.lit "home").
Proof.
  apply (post_redirects_with_one_notice (run initial [POST_home movies noon]) POST_clear).
  discriminate.
Defined.

Lemma rejection_names_first_faulty_field_witness :
  exists k text max_length field_name suffix,
    nth_error (fields long_item3_form) k = Some (text, max_length, field_name)
    /\ (forall j f', (j < k)%nat ->
          nth_error (fields long_item3_form) j = Some f' -> valid f')
    /\ validate_input text max_length field_name
       = (false, Some (Py.lit "Item 3 exceeds maximum length of 200 characters"))
    /\ faulty (text, max_length, field_name)
    /\ Py.lit "Item 3 exceeds maximum length of 200 characters"
       = field_name ++ suffix.
Proof.
  apply (rejection_names_first_faulty_field initial long_item3_form noon).
  vm_compute. reflexivity.
Defined.
